(** * rq-typed-client-demo: hierarchical query keys, the transport mock and
      the cache effects of the content-type mutation.

    The development follows the layout of the repository:
    - the values a key segment holds and the object literals that build keys
      ([src/queries/contentTypes/contentTypeKeys.ts],
       [src/queries/languages/languageKeys.ts]);
    - the cache models ([contentType.model.ts]) and the transport mock
      ([contentType.service.mock.ts], [language.service.mock.ts]);
    - the cache store, the query executor and the mutation coordinator that
      the repository reaches through [TypedQueryClient]
      ([typedQueryClient.type.ts]); their code is not part of the repository,
      so they are modelled from the specification;
    - the query and mutation options ([getContentType.ts],
      [getContentTypes.ts], [getLanguages.ts], [updateContentType.ts]). *)

From stdpp Require Import gmap strings list fin_maps.

Local Open Scope string_scope.
Local Open Scope list_scope.

(** ** Values of key fields *)

(** A field of a key segment holds a string ([type], [projectId], [scope],
    [detailId]) or the [filter] payload, a [Record<string, string>] used as a
    map from names to strings. *)
Inductive Value :=
  | VStr (s : string)
  | VRecord (r : gmap string string).

#[global] Instance Value_eq_dec : EqDecision Value.
Proof. solve_decision. Defined.

#[global] Instance Value_countable : Countable Value.
Proof.
  refine (inj_countable'
    (fun v => match v with VStr s => inl s | VRecord r => inr r end)
    (fun x => match x with inl s => VStr s | inr r => VRecord r end) _).
  intros []; reflexivity.
Defined.

(** ** Object literals *)

(** A JavaScript object with string-named own properties, in insertion
    order.  None of the property names used by the key constructors is an
    integer index, so insertion order is enumeration order. *)
Definition Obj := list (string * Value).

(** [o[k]] restricted to own properties. *)
Fixpoint obj_get (o : Obj) (k : string) : option Value :=
  match o with
  | [] => None
  | (k', v) :: o' => if String.eqb k' k then Some v else obj_get o' k
  end.

(** Defining property [k]: an existing property keeps its position and takes
    the new value, a new property goes last. *)
Fixpoint obj_set (o : Obj) (k : string) (v : Value) : Obj :=
  match o with
  | [] => [(k, v)]
  | (k', v') :: o' =>
      if String.eqb k' k then (k, v) :: o' else (k', v') :: obj_set o' k v
  end.

(** The object literal [{ ...parent, k1: v1, ..., kn: vn }]: the own
    properties of [parent] are copied in order into a fresh object, then the
    listed properties are defined in the order they are written. *)
Definition extend (parent : Obj) (fields : list (string * Value)) : Obj :=
  foldl (fun o kv => obj_set o kv.1 kv.2) [] (parent ++ fields).

(** A key is an array of segments; every key of the repository has exactly
    one ([type QueryKey = readonly [Record<string, unknown>]]). *)
Definition Key := list Obj.

(** [key[0]]; spreading the [undefined] of an empty array copies nothing. *)
Definition segment0 (k : Key) : Obj :=
  match k with
  | s :: _ => s
  | [] => []
  end.

(** The names of the fields of a segment, in enumeration order. *)
Definition field_names (o : Obj) : list string := o.*1.

(** ** Key constructors *)

Module contentTypeKeys.
Module filterKeys.
Definition all : Key := [ extend [] [("type", VStr "contentType")] ].

Definition allForEnvironment (projectId : string) : Key :=
  [ extend (segment0 all) [("projectId", VStr projectId)] ].

Definition detailsForEnvironment (projectId : string) : Key :=
  [ extend (segment0 (allForEnvironment projectId))
      [("scope", VStr "detail")] ].

Definition listsForEnvironment (projectId : string) : Key :=
  [ extend (segment0 (allForEnvironment projectId))
      [("scope", VStr "list")] ].
End filterKeys.

Module queryKeys.
Definition detail (projectId detailId : string) : Key :=
  [ extend (segment0 (filterKeys.detailsForEnvironment projectId))
      [("detailId", VStr detailId)] ].

(** [filter ?? {}]: an absent filter is the empty record. *)
Definition list (projectId : string)
    (filter : option (gmap string string)) : Key :=
  [ extend (segment0 (filterKeys.listsForEnvironment projectId))
      [("filter", VRecord (default ∅ filter))] ].
End queryKeys.
End contentTypeKeys.

Module languageKeys.
Module filterKeys.
Definition all : Key := [ extend [] [("type", VStr "language")] ].

Definition allForEnvironment (projectId : string) : Key :=
  [ extend (segment0 all) [("projectId", VStr projectId)] ].

Definition listsForEnvironment (projectId : string) : Key :=
  [ extend (segment0 (allForEnvironment projectId))
      [("scope", VStr "list")] ].
End filterKeys.

Module queryKeys.
Definition list (projectId : string) : Key :=
  [ extend (segment0 (filterKeys.listsForEnvironment projectId)) [] ].
End queryKeys.
End languageKeys.

(** ** Cache models *)

Module ContentType.
Record t := mk {
  id : string;
  name : string;
  codename : string;
  lastModified : string;
}.
End ContentType.

Module ContentTypes.
Record pagination_t := mk_pagination {
  count : nat;
  nextPage : option string;
}.
Record t := mk {
  data : list ContentType.t;
  pagination : pagination_t;
}.
End ContentTypes.

Module Language.
Record t := mk {
  id : string;
  name : string;
  codename : string;
}.
End Language.

(** ** Promises and property access *)

(** [new Error(message)]. *)
Definition Error := string.

(** A settled promise: [Promise.resolve(a)] or [Promise.reject(e)]. *)
Inductive Promise (A : Type) :=
  | resolved (a : A)
  | rejected (e : Error).
Arguments resolved {A} a.
Arguments rejected {A} e.

(** The properties every object literal inherits from [Object.prototype].
    Each of them is a function, or for [__proto__] the prototype object
    itself: a value that is not falsy. *)
Definition Object_prototype : list string :=
  [ "constructor"; "hasOwnProperty"; "isPrototypeOf"; "propertyIsEnumerable";
    "toLocaleString"; "toString"; "valueOf"; "__proto__";
    "__defineGetter__"; "__defineSetter__";
    "__lookupGetter__"; "__lookupSetter__" ].

(** What [record[k]] yields when it is not [undefined]: an own property of
    the record, or a member inherited from [Object.prototype]. *)
Inductive Member (A : Type) :=
  | Own (a : A)
  | Inherited (property : string).
Arguments Own {A} a.
Arguments Inherited {A} property.

Fixpoint own_property {A : Type} (record : list (string * A)) (k : string)
    : option A :=
  match record with
  | [] => None
  | (k', a) :: record' =>
      if String.eqb k' k then Some a else own_property record' k
  end.

(** [record[k]] on an object literal: own properties first, then the
    prototype chain; [None] is [undefined]. *)
Definition property {A : Type} (record : list (string * A)) (k : string)
    : option (Member A) :=
  match own_property record k with
  | Some a => Some (Own a)
  | None =>
      if existsb (String.eqb k) Object_prototype then Some (Inherited k)
      else None
  end.

(** [s.includes(sub)]. *)
Fixpoint includes (s sub : string) : bool :=
  String.prefix sub s ||
  match s with
  | EmptyString => false
  | String _ s' => includes s' sub
  end.

(** ** The transport mock

    [console.log] output is not modelled.  [String.prototype.toLowerCase] is
    a primitive of the host and is taken as a parameter where it is used;
    [new Date().toISOString()] is the argument [now], the timestamp at the
    time of the call. *)

Module mock.
Definition allContentTypes : list ContentType.t :=
  [ ContentType.mk "ct-001" "Article" "article" "2025-01-15T10:30:00Z";
    ContentType.mk "ct-002" "Author" "author" "2025-01-14T15:20:00Z";
    ContentType.mk "ct-003" "Product" "product" "2025-01-13T09:45:00Z";
    ContentType.mk "ct-004" "Category" "category" "2025-01-12T14:10:00Z" ].

Definition mockContentTypesByCodename : list (string * ContentType.t) :=
  [ ("article",
     ContentType.mk "ct-001" "Article" "article" "2025-01-15T10:30:00Z");
    ("author",
     ContentType.mk "ct-002" "Author" "author" "2025-01-14T15:20:00Z");
    ("product",
     ContentType.mk "ct-003" "Product" "product" "2025-01-13T09:45:00Z") ].

Definition fetchContentTypes (toLowerCase : string -> string)
    (projectId : string) (filter : option (gmap string string))
    : Promise ContentTypes.t :=
  let filteredTypes :=
    match filter ≫= (fun f => f !! "name") with
    | Some n =>
        (* [if (filter?.name)]: the empty string is falsy *)
        if String.eqb n EmptyString then allContentTypes
        else List.filter
               (fun ct => includes (toLowerCase (ContentType.name ct))
                                   (toLowerCase n))
               allContentTypes
    | None => allContentTypes
    end in
  resolved
    (ContentTypes.mk filteredTypes
       (ContentTypes.mk_pagination (length filteredTypes) None)).

(** The guard [if (!contentType)] rejects when the lookup is [undefined];
    every other result of the lookup resolves the promise. *)
Definition fetchContentType (projectId contentTypeId : string)
    : Promise (Member ContentType.t) :=
  match property mockContentTypesByCodename contentTypeId with
  | None =>
      rejected ("Content type with ID '" +:+ contentTypeId +:+ "' not found")
  | Some contentType => resolved contentType
  end.

(** [{ ...contentType, lastModified: new Date().toISOString() }]. *)
Definition updateContentType (now : string) (contentType : ContentType.t)
    : Promise ContentType.t :=
  resolved
    (ContentType.mk (ContentType.id contentType)
       (ContentType.name contentType) (ContentType.codename contentType)
       now).

Definition mockLanguages : list Language.t :=
  [ Language.mk "lang-001" "English (United States)" "en-us";
    Language.mk "lang-002" "German (Germany)" "de-de";
    Language.mk "lang-003" "Spanish (Spain)" "es-es";
    Language.mk "lang-004" "French (France)" "fr-fr" ].

Definition fetchLanguages (projectId : string)
    : Promise (list Language.t) :=
  resolved mockLanguages.
End mock.

(** ** Registered keys *)

Inductive Entity := contentTypeEntity | languageEntity.

(** The value of the [type] field of the keys of an entity. *)
Definition entity_type (e : Entity) : string :=
  match e with
  | contentTypeEntity => "contentType"
  | languageEntity => "language"
  end.

(** The filter keys the constructors of an entity produce. *)
Inductive FilterKey : Entity -> Key -> Prop :=
  | fk_contentType_all :
      FilterKey contentTypeEntity contentTypeKeys.filterKeys.all
  | fk_contentType_allForEnvironment projectId :
      FilterKey contentTypeEntity
        (contentTypeKeys.filterKeys.allForEnvironment projectId)
  | fk_contentType_detailsForEnvironment projectId :
      FilterKey contentTypeEntity
        (contentTypeKeys.filterKeys.detailsForEnvironment projectId)
  | fk_contentType_listsForEnvironment projectId :
      FilterKey contentTypeEntity
        (contentTypeKeys.filterKeys.listsForEnvironment projectId)
  | fk_language_all :
      FilterKey languageEntity languageKeys.filterKeys.all
  | fk_language_allForEnvironment projectId :
      FilterKey languageEntity
        (languageKeys.filterKeys.allForEnvironment projectId)
  | fk_language_listsForEnvironment projectId :
      FilterKey languageEntity
        (languageKeys.filterKeys.listsForEnvironment projectId).

(** The query keys (leaves) the constructors of an entity produce. *)
Inductive QueryKey : Entity -> Key -> Prop :=
  | qk_contentType_detail projectId detailId :
      QueryKey contentTypeEntity
        (contentTypeKeys.queryKeys.detail projectId detailId)
  | qk_contentType_list projectId filter :
      QueryKey contentTypeEntity
        (contentTypeKeys.queryKeys.list projectId filter)
  | qk_language_list projectId :
      QueryKey languageEntity (languageKeys.queryKeys.list projectId).

(** The cache model a leaf is registered with
    ([QueryKeyNameToCacheModel] of each entity). *)
Inductive ModelType := TContentType | TContentTypes | TLanguages.

Inductive Registered : Key -> ModelType -> Prop :=
  | reg_contentType_detail projectId detailId :
      Registered (contentTypeKeys.queryKeys.detail projectId detailId)
        TContentType
  | reg_contentType_list projectId filter :
      Registered (contentTypeKeys.queryKeys.list projectId filter)
        TContentTypes
  | reg_language_list projectId :
      Registered (languageKeys.queryKeys.list projectId) TLanguages.

(** The declaration order of the extension chain; the leaf field is
    [detailId] or [filter]. *)
Definition declaration_order (leaf : string) : list string :=
  ["type"; "projectId"; "scope"; leaf].

(** [child] has the fields of [parent], in the same order and with equal
    values, followed by [extra]. *)
Definition extends_by (parent child : Key) (extra : Obj) : Prop :=
  segment0 child = segment0 parent ++ extra.

Definition strictly_extends (parent child : Key) : Prop :=
  exists extra, extra <> [] /\ extends_by parent child extra.

(** The keys the constructors of an entity produce, filter keys and query
    keys alike. *)
Definition Produced (e : Entity) (k : Key) : Prop :=
  FilterKey e k \/ QueryKey e k.

(** The filter key each query-key constructor spreads into its key. *)
Inductive Parent : Key -> Key -> Prop :=
  | parent_contentType_detail projectId detailId :
      Parent (contentTypeKeys.filterKeys.detailsForEnvironment projectId)
        (contentTypeKeys.queryKeys.detail projectId detailId)
  | parent_contentType_list projectId filter :
      Parent (contentTypeKeys.filterKeys.listsForEnvironment projectId)
        (contentTypeKeys.queryKeys.list projectId filter)
  | parent_language_list projectId :
      Parent (languageKeys.filterKeys.listsForEnvironment projectId)
        (languageKeys.queryKeys.list projectId).

(** The [all] filter key of an entity. *)
Definition all_of (e : Entity) : Key :=
  match e with
  | contentTypeEntity => contentTypeKeys.filterKeys.all
  | languageEntity => languageKeys.filterKeys.all
  end.

(** ** The key algebra: containment *)

(** Modelled from the spec: the containment relation behind [matches]
    (section 3, "every field present in F appears with equal value in Q, and
    Q is a registered leaf beneath F's lineage"); the function that computes
    it belongs to the query client, whose code is not in the repository.
    [fields_within] is the first half, [registered_leaf] recognises the keys
    the registered query-key constructors produce. *)
Definition fields_within (f q : Obj) : bool :=
  forallb (fun kv => bool_decide (obj_get q kv.1 = Some kv.2)) f.

Fixpoint segments_within (F Q : Key) : bool :=
  match F, Q with
  | [], _ => true
  | f :: F', q :: Q' => fields_within f q && segments_within F' Q'
  | _ :: _, [] => false
  end.

Definition registered_leaf (Q : Key) : bool :=
  match Q with
  | [ [(t, VStr entity); (p, VStr _); (s, VStr scope); (l, v)] ] =>
      String.eqb t "type" && String.eqb entity "contentType" &&
      String.eqb p "projectId" && String.eqb s "scope" &&
      match v with
      | VStr _ => String.eqb scope "detail" && String.eqb l "detailId"
      | VRecord _ => String.eqb scope "list" && String.eqb l "filter"
      end
  | [ [(t, VStr entity); (p, VStr _); (s, VStr scope)] ] =>
      String.eqb t "type" && String.eqb entity "language" &&
      String.eqb p "projectId" && String.eqb s "scope" &&
      String.eqb scope "list"
  | _ => false
  end.

Definition matches (F Q : Key) : bool :=
  segments_within F Q && registered_leaf Q.

(** ** The cache store *)

(** What an entry holds: a value of one of the registered models, or a value
    of none of them (the typed facade "performs no additional runtime
    validation of value shape"), named by where it came from. *)
Inductive CacheModel :=
  | MContentType (c : ContentType.t)
  | MContentTypes (cs : ContentTypes.t)
  | MLanguages (ls : list Language.t)
  | MForeign (what : string).

Definition has_model (v : CacheModel) (m : ModelType) : Prop :=
  match v, m with
  | MContentType _, TContentType => True
  | MContentTypes _, TContentTypes => True
  | MLanguages _, TLanguages => True
  | _, _ => False
  end.

Inductive State := idle | loading | success | error.

(** [Date.now()]: milliseconds since the epoch. *)
Definition Timestamp := N.

(** Modelled from the spec: the cache entry of section 3,
    [{key, state, value?, error?, lastUpdated, stale}]; the store is the
    query client's and its code is not in the repository.  The store maps a
    key to its entry, so the entry's [key] is the key it is stored under. *)
Module Entry.
Record t := mk {
  state : State;
  value : option CacheModel;
  error : option Error;
  lastUpdated : Timestamp;
  stale : bool;
}.

(** The entry created on the first fetch or write for a key. *)
Definition fresh : t := mk idle None None 0%N false.
End Entry.

(** Modelled from the spec: the Cache Store of section 4.3, "the mutable
    key -> entry map", keyed by structural key equality.  The operations take
    the store and return the store after them; [now] is the clock reading at
    the time of a write. *)
Abbreviation Store := (gmap Key Entry.t).

Module CacheStore.
(** [read(key) -> Entry | absent], no side effect. *)
Definition read (key : Key) (store : Store) : option Entry.t :=
  store !! key.

(** [write(key, updater)]: "creates the entry if absent, replaces value,
    sets state = success, bumps lastUpdated, clears stale"; when the
    updater returns no value the store is left as it is. *)
Definition write (now : Timestamp) (key : Key)
    (updater : option CacheModel -> option CacheModel) (store : Store)
    : Store :=
  let prev := default Entry.fresh (store !! key) in
  match updater (Entry.value prev) with
  | None => store
  | Some v =>
      <[key := Entry.mk success (Some v) (Entry.error prev) now false]>
        store
  end.

(** [markLoading(key)]: "transition an entry's state; creating the entry
    if absent". *)
Definition markLoading (key : Key) (store : Store) : Store :=
  let prev := default Entry.fresh (store !! key) in
  <[key := Entry.mk loading (Entry.value prev) (Entry.error prev)
             (Entry.lastUpdated prev) (Entry.stale prev)]> store.

(** [markError(key, error)]. *)
Definition markError (key : Key) (e : Error) (store : Store) : Store :=
  let prev := default Entry.fresh (store !! key) in
  <[key := Entry.mk error (Entry.value prev) (Some e)
             (Entry.lastUpdated prev) (Entry.stale prev)]> store.

(** [invalidate(filterKey)]: "for every entry whose key is matched by
    filterKey, set stale = true"; the value stays. *)
Definition invalidate (filterKey : Key) (store : Store) : Store :=
  map_imap
    (fun key e =>
       Some (if matches filterKey key
             then Entry.mk (Entry.state e) (Entry.value e) (Entry.error e)
                    (Entry.lastUpdated e) true
             else e))
    store.
End CacheStore.

(** ** The typed facade ([TypedQueryClient])

    The repository declares the types of these methods; what they do is the
    store's. *)
Module TypedQueryClient.
Definition getQueryData (queryKey : Key) (client : Store)
    : option CacheModel :=
  CacheStore.read queryKey client ≫= Entry.value.

Definition getQueryState (queryKey : Key) (client : Store)
    : option Entry.t :=
  CacheStore.read queryKey client.

Definition setQueryData (now : Timestamp) (queryKey : Key)
    (updater : option CacheModel -> option CacheModel) (client : Store)
    : Store :=
  CacheStore.write now queryKey updater client.

Definition invalidateQueries (queryKey : Key) (client : Store) : Store :=
  CacheStore.invalidate queryKey client.
End TypedQueryClient.

(** ** The query executor *)

(** [queryOptions({ queryKey, queryFn })]; the [queryFn] receives the key
    and its outcome is the settled promise of the transport. *)
Module QueryOptions.
Record t := mk {
  queryKey : Key;
  queryFn : Key -> Promise CacheModel;
}.
End QueryOptions.

(** Modelled from the spec: the Query Executor of section 4.4; its code is
    the query client's and is not in the repository.  A (re)fetch moves the
    entry to [loading]; "on fetch completion: success writes the value via
    Cache Store write and clears stale; failure calls markError and leaves
    any previous value intact". *)
Module QueryExecutor.
Definition complete (now : Timestamp) (key : Key)
    (outcome : Promise CacheModel) (store : Store) : Store :=
  match outcome with
  | resolved v => CacheStore.write now key (fun _ => Some v) store
  | rejected e => CacheStore.markError key e store
  end.

Definition refetch (now : Timestamp) (q : QueryOptions.t) (store : Store)
    : Store :=
  let key := QueryOptions.queryKey q in
  complete now key (QueryOptions.queryFn q key)
    (CacheStore.markLoading key store).
End QueryExecutor.

(** [String(x)] of a field read from a key segment, as a template literal
    or a property name converts it. *)
Definition to_string (x : option Value) : string :=
  match x with
  | Some (VStr s) => s
  | Some (VRecord _) => "[object Object]"
  | None => "undefined"
  end.

(** What the settled promise of a fetched content type puts in the cache:
    the record, or the inherited member the lookup returned. *)
Definition fetched_content_type (m : Member ContentType.t) : CacheModel :=
  match m with
  | Own c => MContentType c
  | Inherited property => MForeign property
  end.

Definition promise_map {A B : Type} (f : A -> B) (p : Promise A)
    : Promise B :=
  match p with
  | resolved a => resolved (f a)
  | rejected e => rejected e
  end.

(** [src/queries/contentTypes/getContentType.ts]: the [queryFn] reads
    [projectId] and [detailId] back from the first segment of the key. *)
Definition getContentType (projectId contentTypeId : string)
    : QueryOptions.t :=
  QueryOptions.mk
    (contentTypeKeys.queryKeys.detail projectId contentTypeId)
    (fun queryKey =>
       let projectId := to_string (obj_get (segment0 queryKey) "projectId") in
       let detailId := to_string (obj_get (segment0 queryKey) "detailId") in
       promise_map fetched_content_type
         (mock.fetchContentType projectId detailId)).

(** [src/queries/contentTypes/getContentTypes.ts]; a [filter] field that is
    not a record does not occur in a key of [queryKeys.list]. *)
Definition getContentTypes (toLowerCase : string -> string)
    (projectId : string) (filter : option (gmap string string))
    : QueryOptions.t :=
  QueryOptions.mk
    (contentTypeKeys.queryKeys.list projectId filter)
    (fun queryKey =>
       let projectId := to_string (obj_get (segment0 queryKey) "projectId") in
       let filter :=
         match obj_get (segment0 queryKey) "filter" with
         | Some (VRecord r) => Some r
         | _ => None
         end in
       promise_map MContentTypes
         (mock.fetchContentTypes toLowerCase projectId filter)).

(** [src/queries/languages/getLanguages.ts]. *)
Definition languagesQuery (projectId : string) : QueryOptions.t :=
  QueryOptions.mk
    (languageKeys.queryKeys.list projectId)
    (fun queryKey =>
       let projectId := to_string (obj_get (segment0 queryKey) "projectId") in
       promise_map MLanguages (mock.fetchLanguages projectId)).

(** ** The mutation coordinator *)

(** [mutationOptions({ mutationFn, onSuccess })].  [onSuccess] receives the
    committed data, the variables and, as [context.client], the query
    client, here the store it acts on; [now] is the clock reading when it
    runs. *)
Module MutationOptions.
Record t (TVariables TData : Type) := mk {
  mutationFn : TVariables -> Promise TData;
  onSuccess : Timestamp -> TData -> TVariables -> Store -> Store;
}.
Arguments mk {TVariables TData} mutationFn onSuccess.
Arguments mutationFn {TVariables TData} t.
Arguments onSuccess {TVariables TData} t.
End MutationOptions.

(** Modelled from the spec: the Mutation Coordinator of section 4.5; its
    code is the query client's and is not in the repository.  It "executes a
    single write-intent operation against the origin ... then, only on
    success, applies a caller-declared sequence of cache effects"; "on
    origin failure, no cache effect is applied; the failure is surfaced to
    the caller".  The result is the store after the call and the outcome the
    caller sees. *)
Module MutationCoordinator.
Definition mutate {TVariables TData : Type}
    (options : MutationOptions.t TVariables TData) (now : Timestamp)
    (variables : TVariables) (store : Store) : Store * Promise TData :=
  match MutationOptions.mutationFn options variables with
  | resolved data =>
      (MutationOptions.onSuccess options now data variables store,
       resolved data)
  | rejected e => (store, rejected e)
  end.
End MutationCoordinator.

(** [src/queries/contentTypes/updateContentType.ts] *)
Module Variables.
Record t := mk {
  projectId : string;
  contentType : ContentType.t;
}.
End Variables.

(** The mutation options over the origin's commit; the repository commits
    through [mock.updateContentType]. *)
Definition updateContentTypeWith
    (commit : ContentType.t -> Promise ContentType.t)
    : MutationOptions.t Variables.t ContentType.t :=
  MutationOptions.mk
    (fun variables => commit (Variables.contentType variables))
    (fun now data variables queryClient =>
       let queryClient :=
         TypedQueryClient.setQueryData now
           (contentTypeKeys.queryKeys.detail (Variables.projectId variables)
              (ContentType.id data))
           (fun _ => Some (MContentType data)) queryClient in
       TypedQueryClient.invalidateQueries
         (contentTypeKeys.filterKeys.listsForEnvironment
            (Variables.projectId variables))
         queryClient).

Definition updateContentType (commitTime : string)
    : MutationOptions.t Variables.t ContentType.t :=
  updateContentTypeWith (mock.updateContentType commitTime).

(** ** A scenario: the cache of the demo application

    The store after the application has fetched the detail of ['article'],
    the unfiltered list and the languages of project ['project-001'], with a
    detail entry for id ['ct-001'] written by hand. *)
Definition article : ContentType.t :=
  ContentType.mk "ct-001" "Article" "article" "2025-01-15T10:30:00Z".

Definition article_updated : ContentType.t :=
  ContentType.mk "ct-001" "Article (Updated)" "article"
    "2025-01-15T10:30:00Z".

Definition scenario_store : Store :=
  let store :=
    QueryExecutor.refetch 1736937000000%N
      (getContentType "project-001" "article") ∅ in
  let store :=
    QueryExecutor.refetch 1736937000001%N
      (getContentTypes (fun s => s) "project-001" None) store in
  let store :=
    QueryExecutor.refetch 1736937000002%N
      (languagesQuery "project-001") store in
  TypedQueryClient.setQueryData 1736937000003%N
    (contentTypeKeys.queryKeys.detail "project-001" "ct-001")
    (fun _ => Some (MContentType article)) store.

(** An origin that refuses every commit. *)
Definition failing_commit (c : ContentType.t) : Promise ContentType.t :=
  rejected "origin unavailable".

(** The scenario of the detail update: the application commits the article
    with the name ['Article (Updated)']. *)
Definition scenario_variables : Variables.t :=
  Variables.mk "project-001" article_updated.

Definition scenario_after : Store :=
  (MutationCoordinator.mutate (updateContentType "2025-01-16T08:00:00.000Z")
     1736937060000%N scenario_variables scenario_store).1.

(** ** The filter-key hierarchy *)

(** The filter key each filter-key constructor spreads into its key, and the
    field it adds. *)
Inductive FilterParent : Key -> Key -> string -> Prop :=
  | fp_contentType_allForEnvironment projectId :
      FilterParent contentTypeKeys.filterKeys.all
        (contentTypeKeys.filterKeys.allForEnvironment projectId) "projectId"
  | fp_contentType_detailsForEnvironment projectId :
      FilterParent (contentTypeKeys.filterKeys.allForEnvironment projectId)
        (contentTypeKeys.filterKeys.detailsForEnvironment projectId) "scope"
  | fp_contentType_listsForEnvironment projectId :
      FilterParent (contentTypeKeys.filterKeys.allForEnvironment projectId)
        (contentTypeKeys.filterKeys.listsForEnvironment projectId) "scope"
  | fp_language_allForEnvironment projectId :
      FilterParent languageKeys.filterKeys.all
        (languageKeys.filterKeys.allForEnvironment projectId) "projectId"
  | fp_language_listsForEnvironment projectId :
      FilterParent (languageKeys.filterKeys.allForEnvironment projectId)
        (languageKeys.filterKeys.listsForEnvironment projectId) "scope".

(** ** The demo application ([src/app/App.tsx]) *)

Definition PROJECT_ID : string := "project-001".

(** [handleUpdate] of [ContentTypeDetail]: nothing happens while the detail
    query has no data; otherwise the mutation is started with the fetched
    record under the name [`${data.name} (Updated)`].  The result is the
    variables handed to [mutation.mutate], if any. *)
Definition handleUpdate (data : option ContentType.t)
    : option Variables.t :=
  match data with
  | None => None
  | Some data =>
      Some (Variables.mk PROJECT_ID
              (ContentType.mk (ContentType.id data)
                 (ContentType.name data +:+ " (Updated)")
                 (ContentType.codename data)
                 (ContentType.lastModified data)))
  end.

(** The updater [handleManualCacheUpdate] of [TypeSafeCacheAccess] passes to
    [setQueryData]: [if (!old) return old], otherwise the cached record with
    a marked name and [lastModified] set to [now]. *)
Definition manualCacheUpdater (now : string) (old : option ContentType.t)
    : option ContentType.t :=
  match old with
  | None => None
  | Some old =>
      Some (ContentType.mk (ContentType.id old)
              (ContentType.name old +:+ " [Manually Updated]")
              (ContentType.codename old)
              now)
  end.

(** ** Property names *)

(** [true] for a decimal digit. *)
Definition is_digit (a : Ascii.ascii) : bool :=
  (48 <=? Ascii.nat_of_ascii a)%nat && (Ascii.nat_of_ascii a <=? 57)%nat.

(** A property name an object literal treats like any other: it is not an
    array index, which would be enumerated before the string-named
    properties whatever the order of insertion (every array index starts
    with a digit), and it is not [__proto__], which a literal takes as the
    prototype rather than as a property. *)
Definition plain_name (k : string) : bool :=
  match k with
  | String a _ => negb (is_digit a)
  | EmptyString => true
  end && negb (String.eqb k "__proto__").

(** * Properties *)

(** Case analysis on the string comparisons a containment test leaves. *)
Ltac key_cases :=
  unfold matches; simpl; repeat case_bool_decide; simplify_eq/=.

(** ** The keys as the constructors build them *)

Example contentType_detail_key :
  contentTypeKeys.queryKeys.detail "project-001" "article" =
  [ [("type", VStr "contentType"); ("projectId", VStr "project-001");
     ("scope", VStr "detail"); ("detailId", VStr "article")] ].
Proof. reflexivity. Qed.

Example contentType_list_key_without_filter :
  contentTypeKeys.queryKeys.list "project-001" None =
  [ [("type", VStr "contentType"); ("projectId", VStr "project-001");
     ("scope", VStr "list"); ("filter", VRecord ∅)] ].
Proof. reflexivity. Qed.

Example language_list_key :
  languageKeys.queryKeys.list "project-001" =
  [ [("type", VStr "language"); ("projectId", VStr "project-001");
     ("scope", VStr "list")] ].
Proof. reflexivity. Qed.

(** A property defined again keeps its place in the enumeration order. *)
Example extend_keeps_position :
  extend [("type", VStr "language"); ("scope", VStr "list")]
    [("type", VStr "contentType")] =
  [("type", VStr "contentType"); ("scope", VStr "list")].
Proof. reflexivity. Qed.

(** ** Object literals and key shapes *)

Lemma obj_get_elem (o : Obj) k v :
  NoDup (field_names o) -> (k, v) ∈ o -> obj_get o k = Some v.
Proof.
  unfold field_names. induction o as [|[k' v'] o IH]; intros Hnd Hin.
  - by apply elem_of_nil in Hin.
  - apply NoDup_cons in Hnd as [Hk' Hnd]. simpl.
    apply elem_of_cons in Hin as [Heq|Hin].
    + simplify_eq. by rewrite String.eqb_refl.
    + destruct (String.eqb_spec k' k) as [->|_]; [|by apply IH].
      exfalso. apply Hk'. apply list_elem_of_fmap. by exists (k, v).
Qed.

Lemma fields_within_spec (f q : Obj) :
  fields_within f q = true <-> forall k v, (k, v) ∈ f -> obj_get q k = Some v.
Proof.
  unfold fields_within. rewrite forallb_forall. split.
  - intros H k v Hin. apply list_elem_of_In in Hin.
    specialize (H _ Hin). by apply bool_decide_eq_true in H.
  - intros H [k v] Hin. apply bool_decide_eq_true, H. by apply list_elem_of_In.
Qed.

(** A prefix of a segment whose field names are distinct lies within it. *)
Lemma prefix_fields_within (f q : Obj) :
  NoDup (field_names q) -> f `prefix_of` q -> fields_within f q = true.
Proof.
  intros Hnd [rest ->]. apply fields_within_spec. intros k v Hin.
  apply obj_get_elem; [done|]. apply elem_of_app. by left.
Qed.

(** Every produced key is a single segment. *)
Lemma FilterKey_single e F : FilterKey e F -> F = [segment0 F].
Proof. by destruct 1. Qed.

Lemma QueryKey_single e Q : QueryKey e Q -> Q = [segment0 Q].
Proof. by destruct 1. Qed.

Lemma QueryKey_NoDup e Q : QueryKey e Q -> NoDup (field_names (segment0 Q)).
Proof.
  destruct 1; apply (bool_decide_unpack _); vm_compute; exact I.
Qed.

(** The recogniser accepts exactly the keys of the query-key constructors. *)
Lemma registered_leaf_QueryKey e Q : QueryKey e Q -> registered_leaf Q = true.
Proof. by destruct 1. Qed.

Lemma registered_leaf_inv Q :
  registered_leaf Q = true -> exists e, QueryKey e Q.
Proof.
  intros H.
  destruct Q as [|seg rest]; [done|].
  destruct seg as [|[t [entity|]] [|[p [pv|]] [|[s [scope|]] [|[l v] [|]]]]];
    try done; destruct rest; try done; cbn in H.
  - repeat (rewrite ?andb_true_iff, ?String.eqb_eq in H).
    destruct H as [[[[-> ->] ->] ->] ->].
    exists languageEntity. apply (qk_language_list pv).
  - destruct v as [d|r]; repeat (rewrite ?andb_true_iff, ?String.eqb_eq in H);
      destruct H as [[[[-> ->] ->] ->] [-> ->]]; exists contentTypeEntity.
    + apply (qk_contentType_detail pv d).
    + apply (qk_contentType_list pv (Some r)).
Qed.

Lemma matches_QueryKey e F Q :
  QueryKey e Q -> matches F Q = segments_within F Q.
Proof.
  intros HQ. unfold matches. rewrite (registered_leaf_QueryKey _ _ HQ).
  apply andb_true_r.
Qed.


(** ** C7: key construction *)

Lemma Produced_same_fields e1 e2 k1 k2 :
  Produced e1 k1 -> Produced e2 k2 ->
  (forall f, obj_get (segment0 k1) f = obj_get (segment0 k2) f) ->
  k1 = k2.
Proof.
  intros [H1|H1] [H2|H2] H; destruct H1, H2;
    pose proof (H "type") as Htype; pose proof (H "projectId") as Hproject;
    pose proof (H "scope") as Hscope; pose proof (H "detailId") as Hdetail;
    pose proof (H "filter") as Hfilter; clear H;
    cbn in *; simplify_eq; try reflexivity.
  all: unfold contentTypeKeys.queryKeys.list; cbn; congruence.
Qed.

(** C7. Key construction is deterministic and order-stable: equal arguments
    give equal keys for every constructor of both entities; every produced
    key is a single segment whose field names are an initial part of the
    declaration order [type], [projectId], [scope], leaf field ([detailId]
    or [filter]), with [type] first; and two produced keys with the same
    fields and values are structurally equal. *)
Theorem key_construction_deterministic_and_order_stable :
  (forall p p',
     p = p' ->
     contentTypeKeys.filterKeys.allForEnvironment p =
       contentTypeKeys.filterKeys.allForEnvironment p' /\
     contentTypeKeys.filterKeys.detailsForEnvironment p =
       contentTypeKeys.filterKeys.detailsForEnvironment p' /\
     contentTypeKeys.filterKeys.listsForEnvironment p =
       contentTypeKeys.filterKeys.listsForEnvironment p' /\
     languageKeys.filterKeys.allForEnvironment p =
       languageKeys.filterKeys.allForEnvironment p' /\
     languageKeys.filterKeys.listsForEnvironment p =
       languageKeys.filterKeys.listsForEnvironment p' /\
     languageKeys.queryKeys.list p = languageKeys.queryKeys.list p') /\
  (forall p p' d d',
     p = p' -> d = d' ->
     contentTypeKeys.queryKeys.detail p d =
       contentTypeKeys.queryKeys.detail p' d') /\
  (forall p p' f f',
     p = p' -> f = f' ->
     contentTypeKeys.queryKeys.list p f =
       contentTypeKeys.queryKeys.list p' f') /\
  (forall e k,
     Produced e k ->
     k = [segment0 k] /\
     head (field_names (segment0 k)) = Some "type" /\
     exists leaf,
       (leaf = "detailId" \/ leaf = "filter") /\
       field_names (segment0 k) `prefix_of` declaration_order leaf) /\
  (forall e1 e2 k1 k2,
     Produced e1 k1 -> Produced e2 k2 ->
     (forall f, obj_get (segment0 k1) f = obj_get (segment0 k2) f) ->
     k1 = k2).
Proof.
  split; [by intros p p' ->|].
  split; [by intros p p' d d' -> ->|].
  split; [by intros p p' f f' -> ->|].
  split; [|apply Produced_same_fields].
  intros e k [H|H]; destruct H; (split; [reflexivity|]);
    (split; [reflexivity|]); cbn.
  all: first
    [ exists "detailId"; split; [by left|]; eexists; reflexivity
    | exists "filter"; split; [by right|]; eexists; reflexivity ].
Qed.

(** ** C4: query keys and the filter keys they extend *)

(** C4, as stated, fails for the language entity: the list query key of
    project ["project-001"] extends its [listsForEnvironment] filter key by
    no field at all; the two keys are equal. *)
Lemma language_list_key_adds_no_field :
  Parent (languageKeys.filterKeys.listsForEnvironment "project-001")
    (languageKeys.queryKeys.list "project-001") /\
  languageKeys.queryKeys.list "project-001" =
    languageKeys.filterKeys.listsForEnvironment "project-001" /\
  ~ strictly_extends
      (languageKeys.filterKeys.listsForEnvironment "project-001")
      (languageKeys.queryKeys.list "project-001").
Proof.
  split; [constructor|]. split; [reflexivity|].
  intros (extra & Hne & Hext). unfold extends_by in Hext. cbn in Hext.
  simplify_eq.
Qed.

(** C4, amended. Every query key extends the filter key it is built from
    and carries enough fields to identify a single fetchable unit:
    [detail(p, d)] is [detailsForEnvironment(p)] followed by exactly the
    field [detailId] holding [d], and the content-type [list(p, f)] is
    [listsForEnvironment(p)] followed by exactly the field [filter] holding
    [f ?? {}]; both are strict extensions.  The language [list(p)] adds no
    field and is equal to [listsForEnvironment(p)]: among the query keys,
    the strict extensions of their filter key are exactly the content-type
    ones.  Every key identifies its unit: two detail keys are equal exactly
    when project and detail id are, two content-type list keys exactly when
    project and [filter ?? {}] are, two language list keys exactly when the
    project is, and keys of different constructors are never equal. *)
Theorem query_key_extends_parent :
  (forall p d,
     extends_by (contentTypeKeys.filterKeys.detailsForEnvironment p)
       (contentTypeKeys.queryKeys.detail p d) [("detailId", VStr d)]) /\
  (forall p f,
     extends_by (contentTypeKeys.filterKeys.listsForEnvironment p)
       (contentTypeKeys.queryKeys.list p f)
       [("filter", VRecord (default ∅ f))]) /\
  (forall p,
     extends_by (languageKeys.filterKeys.listsForEnvironment p)
       (languageKeys.queryKeys.list p) [] /\
     languageKeys.queryKeys.list p =
       languageKeys.filterKeys.listsForEnvironment p) /\
  (forall F Q,
     Parent F Q ->
     (strictly_extends F Q <-> QueryKey contentTypeEntity Q)) /\
  (forall p d p' d',
     contentTypeKeys.queryKeys.detail p d =
       contentTypeKeys.queryKeys.detail p' d' <->
     p = p' /\ d = d') /\
  (forall p f p' f',
     contentTypeKeys.queryKeys.list p f =
       contentTypeKeys.queryKeys.list p' f' <->
     p = p' /\ default ∅ f = default ∅ f') /\
  (forall p p',
     languageKeys.queryKeys.list p = languageKeys.queryKeys.list p' <->
     p = p') /\
  (forall p d p' f p'',
     contentTypeKeys.queryKeys.detail p d <>
       contentTypeKeys.queryKeys.list p' f /\
     contentTypeKeys.queryKeys.detail p d <>
       languageKeys.queryKeys.list p'' /\
     contentTypeKeys.queryKeys.list p' f <>
       languageKeys.queryKeys.list p'').
Proof.
  split; [reflexivity|]. split; [reflexivity|].
  split; [by intros p|].
  split.
  { intros F Q HP. destruct HP as [p d|p f|p].
    - split; [constructor|]. intros _.
      by exists [("detailId", VStr d)].
    - split; [constructor|]. intros _.
      by exists [("filter", VRecord (default ∅ f))].
    - split.
      + intros (extra & Hne & Hext). unfold extends_by in Hext.
        cbn in Hext. simplify_eq.
      + intros HQ. inversion HQ; discriminate. }
  split.
  { intros p d p' d'. split; [|by intros [-> ->]].
    intros H. cbn in H. by simplify_eq. }
  split.
  { intros p f p' f'. split.
    - intros H. cbn in H. by simplify_eq.
    - intros [-> Hf]. unfold contentTypeKeys.queryKeys.list. by rewrite Hf. }
  split.
  { intros p p'. split; [|by intros ->]. intros H. cbn in H. by simplify_eq. }
  intros p d p' f p''. repeat split; discriminate.
Qed.

(** ** C2: the containment law *)

(** Containment of a filter key in a query key forces the declaration order:
    the fields of the filter key are then an initial part of the query
    key's. *)
Lemma matches_prefix eF eQ F Q :
  FilterKey eF F -> QueryKey eQ Q ->
  matches F Q = true -> segment0 F `prefix_of` segment0 Q.
Proof.
  intros HF HQ.
  destruct HF, HQ; key_cases;
    first [ discriminate | intros _; eexists; reflexivity ].
Qed.

Lemma prefix_matches eF eQ F Q :
  FilterKey eF F -> QueryKey eQ Q ->
  segment0 F `prefix_of` segment0 Q -> matches F Q = true.
Proof.
  intros HF HQ Hpre. rewrite (matches_QueryKey _ _ _ HQ).
  rewrite (FilterKey_single _ _ HF), (QueryKey_single _ _ HQ). simpl.
  rewrite andb_true_r.
  apply prefix_fields_within; [by eapply QueryKey_NoDup|done].
Qed.

(** C2. Containment law: a filter key [F] matches a query key [Q], both
    built by the registered constructors, exactly when the fields of the
    segment of [F] are, with equal values and in the same order, the leading
    fields of the segment of [Q]; and the [all] key of an entity matches
    every query key of that entity. *)
Theorem containment_law :
  (forall eF eQ F Q,
     FilterKey eF F -> QueryKey eQ Q ->
     (matches F Q = true <-> segment0 F `prefix_of` segment0 Q)) /\
  (forall e Q, QueryKey e Q -> matches (all_of e) Q = true).
Proof.
  split.
  - intros eF eQ F Q HF HQ. split.
    + by eapply matches_prefix.
    + by eapply prefix_matches.
  - intros e Q HQ. by destruct HQ.
Qed.

(** ** C10: keys of different entities *)

Lemma Produced_type e k :
  Produced e k ->
  exists rest, k = [ ("type", VStr (entity_type e)) :: rest ].
Proof. intros [H|H]; destruct H; eexists; reflexivity. Qed.

Lemma cross_entity_no_match e1 e2 F Q :
  FilterKey e1 F -> QueryKey e2 Q -> e1 <> e2 -> matches F Q = false.
Proof. intros HF HQ Hne. by destruct HF, HQ. Qed.

(** ** The cache store *)

Section store.
Context (store : Store).

Lemma write_lookup now key updater v :
  updater (Entry.value (default Entry.fresh (store !! key))) = Some v ->
  CacheStore.write now key updater store !! key =
    Some (Entry.mk success (Some v)
            (Entry.error (default Entry.fresh (store !! key))) now false).
Proof.
  intros Hup. unfold CacheStore.write. cbv zeta. rewrite Hup.
  apply lookup_insert_eq.
Qed.

Lemma write_lookup_ne now key updater key' :
  key <> key' ->
  CacheStore.write now key updater store !! key' = store !! key'.
Proof.
  intros Hne. unfold CacheStore.write. cbv zeta.
  destruct (updater _); [by apply lookup_insert_ne|done].
Qed.

Lemma markLoading_lookup key :
  CacheStore.markLoading key store !! key =
    Some (let prev := default Entry.fresh (store !! key) in
          Entry.mk loading (Entry.value prev) (Entry.error prev)
            (Entry.lastUpdated prev) (Entry.stale prev)).
Proof. apply lookup_insert_eq. Qed.

Lemma markError_lookup key e :
  CacheStore.markError key e store !! key =
    Some (let prev := default Entry.fresh (store !! key) in
          Entry.mk error (Entry.value prev) (Some e)
            (Entry.lastUpdated prev) (Entry.stale prev)).
Proof. apply lookup_insert_eq. Qed.

Lemma invalidate_lookup filterKey key :
  CacheStore.invalidate filterKey store !! key =
    (fun e =>
       if matches filterKey key
       then Entry.mk (Entry.state e) (Entry.value e) (Entry.error e)
              (Entry.lastUpdated e) true
       else e) <$> store !! key.
Proof.
  unfold CacheStore.invalidate. rewrite map_lookup_imap.
  by destruct (store !! key).
Qed.

Lemma invalidate_lookup_matched filterKey key e :
  matches filterKey key = true -> store !! key = Some e ->
  CacheStore.invalidate filterKey store !! key =
    Some (Entry.mk (Entry.state e) (Entry.value e) (Entry.error e)
            (Entry.lastUpdated e) true).
Proof. intros Hm He. by rewrite invalidate_lookup, He, Hm. Qed.

Lemma invalidate_lookup_unmatched filterKey key :
  matches filterKey key = false ->
  CacheStore.invalidate filterKey store !! key = store !! key.
Proof.
  intros Hm. rewrite invalidate_lookup, Hm. by destruct (store !! key).
Qed.
End store.

(** C10. Keys of different entities are disjoint: every key produced for an
    entity has the field [type] first, holding ['contentType'] for the
    content-type constructors and ['language'] for the language ones; a
    filter key of one entity matches no query key of the other; and
    invalidating a filter key of one entity leaves the entry of every query
    key of the other entity as it was. *)
Theorem cross_entity_disjointness :
  (forall e k,
     Produced e k ->
     exists rest, k = [ ("type", VStr (entity_type e)) :: rest ]) /\
  (forall e1 e2 F Q,
     FilterKey e1 F -> QueryKey e2 Q -> e1 <> e2 -> matches F Q = false) /\
  (forall e1 e2 F Q (store : Store),
     FilterKey e1 F -> QueryKey e2 Q -> e1 <> e2 ->
     CacheStore.invalidate F store !! Q = store !! Q).
Proof.
  split; [apply Produced_type|]. split; [apply cross_entity_no_match|].
  intros e1 e2 F Q store HF HQ Hne.
  apply invalidate_lookup_unmatched. by eapply cross_entity_no_match.
Qed.

(** ** C5: write, then read *)

(** C5. Write-then-read round trip: for a query key [K] of a registered
    entity and a value [V] of the model registered for [K], after
    [setQueryData(K, () => V)] at time [now], [getQueryData(K)] returns
    exactly [V], and the entry of [K] has state [success], [lastUpdated] set
    to [now] and [stale] cleared. *)
Theorem write_then_read (now : Timestamp) (K : Key) (m : ModelType)
    (V : CacheModel) (store : Store) :
  Registered K m -> has_model V m ->
  TypedQueryClient.getQueryData K
    (TypedQueryClient.setQueryData now K (fun _ => Some V) store) = Some V /\
  exists e,
    TypedQueryClient.getQueryState K
      (TypedQueryClient.setQueryData now K (fun _ => Some V) store) = Some e /\
    Entry.state e = success /\
    Entry.lastUpdated e = now /\
    Entry.stale e = false.
Proof.
  intros _ _.
  unfold TypedQueryClient.getQueryData, TypedQueryClient.getQueryState,
    TypedQueryClient.setQueryData, CacheStore.read.
  rewrite (write_lookup store now K _ V eq_refl). split; [done|].
  eexists. split; [reflexivity|]. done.
Qed.

Lemma write_then_read_witness :
  TypedQueryClient.getQueryData
    (contentTypeKeys.queryKeys.detail "project-001" "article")
    (TypedQueryClient.setQueryData 1736937000000%N
       (contentTypeKeys.queryKeys.detail "project-001" "article")
       (fun _ =>
          Some (MContentType
                  (ContentType.mk "ct-001" "Article" "article"
                     "2025-01-15T10:30:00Z")))
       ∅) =
    Some (MContentType
            (ContentType.mk "ct-001" "Article" "article"
               "2025-01-15T10:30:00Z")) /\
  exists e,
    TypedQueryClient.getQueryState
      (contentTypeKeys.queryKeys.detail "project-001" "article")
      (TypedQueryClient.setQueryData 1736937000000%N
         (contentTypeKeys.queryKeys.detail "project-001" "article")
         (fun _ =>
            Some (MContentType
                    (ContentType.mk "ct-001" "Article" "article"
                       "2025-01-15T10:30:00Z")))
         ∅) = Some e /\
    Entry.state e = success /\
    Entry.lastUpdated e = 1736937000000%N /\
    Entry.stale e = false.
Proof.
  apply (write_then_read _ _ TContentType).
  - apply (reg_contentType_detail "project-001" "article").
  - exact I.
Defined.

(** ** C6: a failed refetch *)

(** The [queryFn] of the detail query reads back the arguments the key was
    built from. *)
Lemma getContentType_queryFn projectId contentTypeId :
  QueryOptions.queryFn (getContentType projectId contentTypeId)
    (QueryOptions.queryKey (getContentType projectId contentTypeId)) =
  promise_map fetched_content_type
    (mock.fetchContentType projectId contentTypeId).
Proof. reflexivity. Qed.

(** When the mock rejects a detail fetch. *)
Lemma fetchContentType_rejected_iff projectId contentTypeId :
  (exists e, mock.fetchContentType projectId contentTypeId = rejected e) <->
  contentTypeId ∉ ["article"; "author"; "product"] ++ Object_prototype.
Proof.
  unfold mock.fetchContentType, property.
  split.
  - intros [e He] Hin.
    apply elem_of_app in Hin as [Hin|Hin].
    + repeat (apply elem_of_cons in Hin as [->|Hin]; [discriminate He|]).
      by apply elem_of_nil in Hin.
    + repeat (apply elem_of_cons in Hin as [->|Hin]; [discriminate He|]).
      by apply elem_of_nil in Hin.
  - intros Hnin.
    assert (own_property mock.mockContentTypesByCodename contentTypeId = None)
      as ->.
    { unfold mock.mockContentTypesByCodename, own_property.
      repeat match goal with
        | |- context [String.eqb ?k contentTypeId] =>
            destruct (String.eqb_spec k contentTypeId) as [<-|_];
            [exfalso; apply Hnin, elem_of_app; left;
             apply (bool_decide_unpack _); vm_compute; exact I|]
        end.
      done. }
    assert (existsb (String.eqb contentTypeId) Object_prototype = false) as ->.
    { apply not_true_is_false. intros Hex.
      apply existsb_exists in Hex as (x & Hx & Heq).
      apply String.eqb_eq in Heq as <-. apply Hnin.
      apply elem_of_app. right. by apply list_elem_of_In. }
    by eexists.
Qed.

(** C6. A failed fetch preserves the prior value: when the entry of the key
    of a query holds a value with state [success] and a refetch of the query
    is rejected by the transport, the entry afterwards still holds that
    value, and its state is [error] with the transport's error recorded. *)
Theorem failed_refetch_preserves_value (now : Timestamp)
    (q : QueryOptions.t) (store : Store) (e : Entry.t) (v : CacheModel)
    (err : Error) :
  store !! QueryOptions.queryKey q = Some e ->
  Entry.state e = success ->
  Entry.value e = Some v ->
  QueryOptions.queryFn q (QueryOptions.queryKey q) = rejected err ->
  exists e',
    QueryExecutor.refetch now q store !! QueryOptions.queryKey q = Some e' /\
    Entry.value e' = Some v /\
    Entry.state e' = error /\
    Entry.error e' = Some err.
Proof.
  intros He _ Hv Hrej.
  unfold QueryExecutor.refetch, QueryExecutor.complete. cbv zeta.
  rewrite Hrej, markError_lookup, markLoading_lookup. simpl.
  eexists. split; [reflexivity|]. simpl. by rewrite He.
Qed.

Lemma failed_refetch_preserves_value_witness :
  exists e',
    QueryExecutor.refetch 1736937060000%N
      (getContentType "project-001" "ct-001") scenario_store
      !! contentTypeKeys.queryKeys.detail "project-001" "ct-001" = Some e' /\
    Entry.value e' = Some (MContentType article) /\
    Entry.state e' = error /\
    Entry.error e' = Some "Content type with ID 'ct-001' not found".
Proof.
  refine (failed_refetch_preserves_value 1736937060000%N
            (getContentType "project-001" "ct-001") scenario_store
            (Entry.mk success (Some (MContentType article)) None
               1736937000003%N false)
            (MContentType article)
            "Content type with ID 'ct-001' not found" _ _ _ _);
    vm_compute; reflexivity.
Defined.

(** ** C3: a failed commit *)

(** The mock never refuses a commit. *)
Lemma mock_updateContentType_resolves now c :
  exists c', mock.updateContentType now c = resolved c'.
Proof. by eexists. Qed.

(** C3. Mutation atomicity: when the commit at the origin fails, the
    mutation applies no cache effect: the store after the call is equal to
    the store before it, and the caller sees the failure. *)
Theorem mutation_atomicity
    (commit : ContentType.t -> Promise ContentType.t) (now : Timestamp)
    (variables : Variables.t) (store : Store) (err : Error) :
  commit (Variables.contentType variables) = rejected err ->
  MutationCoordinator.mutate (updateContentTypeWith commit) now variables
    store = (store, rejected err).
Proof.
  intros Hfail. unfold MutationCoordinator.mutate. simpl. by rewrite Hfail.
Qed.

Lemma mutation_atomicity_witness :
  MutationCoordinator.mutate (updateContentTypeWith failing_commit)
    1736937060000%N (Variables.mk "project-001" article_updated)
    scenario_store = (scenario_store, rejected "origin unavailable").
Proof.
  apply (mutation_atomicity failing_commit). reflexivity.
Defined.

(** ** C1: the cache effects of a committed update *)

Lemma lists_filter_not_detail p p' d :
  matches (contentTypeKeys.filterKeys.listsForEnvironment p)
    (contentTypeKeys.queryKeys.detail p' d) = false.
Proof. by key_cases. Qed.

Lemma lists_filter_list p f :
  matches (contentTypeKeys.filterKeys.listsForEnvironment p)
    (contentTypeKeys.queryKeys.list p f) = true.
Proof. by key_cases. Qed.

Lemma lists_filter_not_language p p' :
  matches (contentTypeKeys.filterKeys.listsForEnvironment p)
    (languageKeys.queryKeys.list p') = false.
Proof. reflexivity. Qed.

Lemma detail_key_inj p d p' d' :
  contentTypeKeys.queryKeys.detail p d =
    contentTypeKeys.queryKeys.detail p' d' ->
  p = p' /\ d = d'.
Proof. intros H. cbn in H. by simplify_eq. Qed.

(** C1. Detail-update propagation: a mutation with the mock transport
    succeeds with the committed record; its cache effects are, in this
    order, the write of that record to the detail key of
    ([projectId], [id]) and the invalidation of the lists-for-environment
    filter key.  Afterwards reading the detail key returns the committed
    record (with the name that was sent) from an entry that is not stale;
    every cached content-type list entry of that project is stale and keeps
    its value; the entries of every other detail key and of every language
    key are as they were. *)
Theorem detail_update_propagation (commitTime : string) (now : Timestamp)
    (variables : Variables.t) (store : Store) :
  let projectId := Variables.projectId variables in
  let sent := Variables.contentType variables in
  let committed :=
    ContentType.mk (ContentType.id sent) (ContentType.name sent)
      (ContentType.codename sent) commitTime in
  let detailKey :=
    contentTypeKeys.queryKeys.detail projectId (ContentType.id sent) in
  let outcome :=
    MutationCoordinator.mutate (updateContentType commitTime) now variables
      store in
  outcome.2 = resolved committed /\
  outcome.1 =
    TypedQueryClient.invalidateQueries
      (contentTypeKeys.filterKeys.listsForEnvironment projectId)
      (TypedQueryClient.setQueryData now detailKey
         (fun _ => Some (MContentType committed)) store) /\
  TypedQueryClient.getQueryData detailKey outcome.1 =
    Some (MContentType committed) /\
  (exists e,
     TypedQueryClient.getQueryState detailKey outcome.1 = Some e /\
     Entry.state e = success /\ Entry.stale e = false) /\
  (forall filter e,
     store !! contentTypeKeys.queryKeys.list projectId filter = Some e ->
     exists e',
       outcome.1 !! contentTypeKeys.queryKeys.list projectId filter =
         Some e' /\
       Entry.stale e' = true /\ Entry.value e' = Entry.value e) /\
  (forall p d,
     (p, d) <> (projectId, ContentType.id sent) ->
     outcome.1 !! contentTypeKeys.queryKeys.detail p d =
       store !! contentTypeKeys.queryKeys.detail p d) /\
  (forall p,
     outcome.1 !! languageKeys.queryKeys.list p =
       store !! languageKeys.queryKeys.list p).
Proof.
  intros projectId sent committed detailKey outcome.
  assert (outcome =
            (CacheStore.invalidate
               (contentTypeKeys.filterKeys.listsForEnvironment projectId)
               (CacheStore.write now detailKey
                  (fun _ => Some (MContentType committed)) store),
             resolved committed)) as -> by reflexivity.
  simpl.
  assert (CacheStore.invalidate
            (contentTypeKeys.filterKeys.listsForEnvironment projectId)
            (CacheStore.write now detailKey
               (fun _ => Some (MContentType committed)) store) !! detailKey =
          Some (Entry.mk success (Some (MContentType committed))
                  (Entry.error (default Entry.fresh (store !! detailKey)))
                  now false)) as Hdetail.
  { rewrite invalidate_lookup_unmatched by apply lists_filter_not_detail.
    by apply write_lookup. }
  split; [reflexivity|]. split; [reflexivity|].
  split.
  { unfold TypedQueryClient.getQueryData, CacheStore.read.
    by rewrite Hdetail. }
  split.
  { eexists. split; [exact Hdetail|]. done. }
  split.
  { intros filter e He. eexists. split.
    - apply invalidate_lookup_matched; [apply lists_filter_list|].
      rewrite write_lookup_ne; [exact He|]. discriminate.
    - done. }
  split.
  { intros p d Hne.
    rewrite invalidate_lookup_unmatched by apply lists_filter_not_detail.
    apply write_lookup_ne. intros Heq.
    apply detail_key_inj in Heq as [<- <-]. by apply Hne. }
  intros p.
  rewrite invalidate_lookup_unmatched by apply lists_filter_not_language.
  apply write_lookup_ne. discriminate.
Qed.

(** The scenario of C1 on the cache of the demo application: after the
    update of the article is committed, the detail key of ['ct-001'] reads
    ['Article (Updated)'], the cached list is stale, and the detail entry the
    application fetched under the codename ['article'] and the language
    entry are as before, and not stale. *)
Lemma detail_update_propagation_scenario :
  TypedQueryClient.getQueryData
    (contentTypeKeys.queryKeys.detail "project-001" "ct-001") scenario_after =
    Some (MContentType
            (ContentType.mk "ct-001" "Article (Updated)" "article"
               "2025-01-16T08:00:00.000Z")) /\
  (exists e',
     scenario_after !! contentTypeKeys.queryKeys.list "project-001" None =
       Some e' /\
     Entry.stale e' = true) /\
  (exists e,
     scenario_after
       !! contentTypeKeys.queryKeys.detail "project-001" "article" = Some e /\
     scenario_store
       !! contentTypeKeys.queryKeys.detail "project-001" "article" = Some e /\
     Entry.value e = Some (MContentType article) /\
     Entry.stale e = false) /\
  (exists e,
     scenario_after !! languageKeys.queryKeys.list "project-001" = Some e /\
     scenario_store !! languageKeys.queryKeys.list "project-001" = Some e /\
     Entry.value e = Some (MLanguages mock.mockLanguages) /\
     Entry.stale e = false).
Proof.
  destruct (detail_update_propagation "2025-01-16T08:00:00.000Z"
              1736937060000%N scenario_variables scenario_store)
    as (_ & _ & Hdetail & _ & Hlists & Hdetails & Hlanguages).
  split; [exact Hdetail|]. split.
  - edestruct (Hlists None) as (e' & He' & Hstale & _).
    + vm_compute. reflexivity.
    + exists e'. by split.
  - split.
    + eexists. rewrite Hdetails by discriminate.
      split; [vm_compute; reflexivity|]. split; [vm_compute; reflexivity|].
      split; reflexivity.
    + eexists. rewrite Hlanguages.
      split; [vm_compute; reflexivity|]. split; [vm_compute; reflexivity|].
      split; reflexivity.
Defined.

(** ** C8: the detail fetch of the mock *)

(** The unfiltered list holds the content type ['category'] (ct-004). *)
Lemma fetchContentTypes_lists_category toLowerCase projectId :
  exists cs,
    mock.fetchContentTypes toLowerCase projectId None = resolved cs /\
    ContentType.mk "ct-004" "Category" "category" "2025-01-12T14:10:00Z"
      ∈ ContentTypes.data cs.
Proof.
  eexists. split; [reflexivity|]. simpl.
  repeat constructor.
Qed.

(** The detail fetch of ['category'] is rejected, for every project. *)
Lemma fetchContentType_category_rejected projectId :
  mock.fetchContentType projectId "category" =
    rejected "Content type with ID 'category' not found".
Proof. reflexivity. Qed.

(** The three codenames resolve to their records. *)
Lemma fetchContentType_codename_resolved projectId contentTypeId :
  contentTypeId ∈ ["article"; "author"; "product"] ->
  exists c,
    mock.fetchContentType projectId contentTypeId = resolved (Own c) /\
    ContentType.codename c = contentTypeId.
Proof.
  intros Hin.
  repeat (apply elem_of_cons in Hin as [->|Hin];
          [eexists; split; reflexivity|]).
  by apply elem_of_nil in Hin.
Qed.

(** C8, at the input where the code departs from it: the id ['constructor']
    is none of the codenames ['article'], ['author'], ['product'], yet the
    detail fetch does not reject it: the lookup in
    [mockContentTypesByCodename] finds the member every object literal
    inherits under that name, and the promise resolves with it. *)
Theorem fetchContentType_inherited_member_resolves :
  ("constructor" ∉ ["article"; "author"; "product"]) /\
  mock.fetchContentType "project-001" "constructor" =
    resolved (Inherited "constructor").
Proof.
  split; [|reflexivity].
  intros Hin.
  repeat (apply elem_of_cons in Hin as [Heq|Hin]; [discriminate Heq|]).
  by apply elem_of_nil in Hin.
Qed.

(** ** C9: the commit of the mock *)

(** C9. Commit frame condition: for every content type [c],
    [mock.updateContentType(c)] resolves to a record with the [id], [name]
    and [codename] of [c]; only [lastModified] is replaced, by the timestamp
    of the commit. *)
Theorem updateContentType_frame (now : string) (c : ContentType.t) :
  exists c',
    mock.updateContentType now c = resolved c' /\
    ContentType.id c' = ContentType.id c /\
    ContentType.name c' = ContentType.name c /\
    ContentType.codename c' = ContentType.codename c /\
    ContentType.lastModified c' = now.
Proof. eexists. split; [reflexivity|]. done. Qed.

(** * Further properties of the code *)

(** ** Object literals *)

Lemma obj_get_set (o : Obj) k v k' :
  obj_get (obj_set o k v) k' =
    if String.eqb k k' then Some v else obj_get o k'.
Proof.
  induction o as [|[k0 v0] o IH]; simpl.
  - by destruct (String.eqb k k').
  - destruct (String.eqb_spec k0 k) as [->|Hne]; simpl.
    + by destruct (String.eqb k k').
    + destruct (String.eqb_spec k0 k') as [->|Hne'].
      * destruct (String.eqb_spec k k') as [->|_]; [done|reflexivity].
      * apply IH.
Qed.

Lemma obj_get_app (o1 o2 : Obj) k :
  obj_get (o1 ++ o2) k =
    match obj_get o1 k with Some v => Some v | None => obj_get o2 k end.
Proof.
  induction o1 as [|[k0 v0] o1 IH]; simpl; [done|].
  by destruct (String.eqb k0 k).
Qed.

Lemma foldl_obj_set_get (l acc : Obj) k :
  obj_get (foldl (fun o kv => obj_set o kv.1 kv.2) acc l) k =
    match obj_get (reverse l) k with
    | Some v => Some v
    | None => obj_get acc k
    end.
Proof.
  revert acc. induction l as [|[k0 v0] l IH]; intros acc; simpl; [done|].
  rewrite IH, reverse_cons, obj_get_app, obj_get_set. simpl.
  destruct (obj_get (reverse l) k); [done|].
  by destruct (String.eqb k0 k).
Qed.

(** X1. Reading a property of [{ ...parent, k1: v1, ..., kn: vn }]: the value
    written last wins, the listed fields before the spread ones. *)
Theorem extend_get (parent fields : Obj) k :
  obj_get (extend parent fields) k =
    match obj_get (reverse fields) k with
    | Some v => Some v
    | None => obj_get (reverse parent) k
    end.
Proof.
  unfold extend. rewrite foldl_obj_set_get, reverse_app, obj_get_app.
  destruct (obj_get (reverse fields) k); [done|].
  by destruct (obj_get (reverse parent) k).
Qed.

Lemma obj_set_names (o : Obj) k v :
  field_names (obj_set o k v) =
    if bool_decide (k ∈ field_names o) then field_names o
    else field_names o ++ [k].
Proof.
  unfold field_names. induction o as [|[k0 v0] o IH]; csimpl; [done|].
  destruct (String.eqb_spec k0 k) as [->|Hne]; csimpl.
  - rewrite bool_decide_eq_true_2; [done|]. apply list_elem_of_here.
  - rewrite IH. case_bool_decide as Hin.
    + rewrite bool_decide_eq_true_2; [done|]. by apply list_elem_of_further.
    + rewrite bool_decide_eq_false_2; [done|].
      intros [?|?]%elem_of_cons; by simplify_eq.
Qed.

Lemma obj_set_NoDup (o : Obj) k v :
  NoDup (field_names o) -> NoDup (field_names (obj_set o k v)).
Proof.
  intros Hnd. rewrite obj_set_names. case_bool_decide as Hin; [done|].
  apply NoDup_app. split; [done|]. split.
  - intros x Hx [->|[]%elem_of_nil]%elem_of_cons. done.
  - apply NoDup_singleton.
Qed.

(** X2. An object literal never holds a property name twice, whatever is spread
    into it and whatever fields are listed. *)
Theorem extend_NoDup (parent fields : Obj) :
  NoDup (field_names (extend parent fields)).
Proof.
  unfold extend.
  assert (forall l acc,
            NoDup (field_names acc) ->
            NoDup (field_names
                     (foldl (fun o kv => obj_set o kv.1 kv.2) acc l))) as H.
  { induction l as [|[k v] l IH]; intros acc Hacc; simpl; [done|].
    apply IH. by apply obj_set_NoDup. }
  apply H. apply NoDup_nil_2.
Qed.

Lemma obj_set_fresh (o : Obj) k v :
  k ∉ field_names o -> obj_set o k v = o ++ [(k, v)].
Proof.
  unfold field_names. induction o as [|[k0 v0] o IH]; intros Hnin; csimpl.
  - done.
  - csimpl in Hnin. apply not_elem_of_cons in Hnin as [Hne Hnin].
    destruct (String.eqb_spec k0 k) as [->|_]; [done|].
    by rewrite IH.
Qed.

(** X3. When the fields of [parent] and the listed fields carry distinct
    names, none of them an array index or [__proto__], the literal
    [{ ...parent, k1: v1, ..., kn: vn }] is [parent] followed by the listed
    fields, in the order they are written. *)
Theorem extend_fresh (parent fields : Obj) :
  Forall (fun k => plain_name k = true) (field_names (parent ++ fields)) ->
  NoDup (field_names (parent ++ fields)) ->
  extend parent fields = parent ++ fields.
Proof.
  intros _. unfold extend.
  assert (forall l acc,
            NoDup (field_names (acc ++ l)) ->
            foldl (fun o kv => obj_set o kv.1 kv.2) acc l = acc ++ l) as H.
  { induction l as [|[k v] l IH]; intros acc Hnd; simpl.
    - by rewrite app_nil_r.
    - assert (k ∉ field_names acc) as Hk.
      { unfold field_names in *. rewrite fmap_app in Hnd.
        apply NoDup_app in Hnd as (_ & Hdisj & _).
        intros Hin. apply (Hdisj k Hin). simpl. apply list_elem_of_here. }
      rewrite obj_set_fresh by done.
      rewrite IH; [by rewrite <- app_assoc|].
      by rewrite <- app_assoc. }
  intros Hnd. by rewrite H.
Qed.

Lemma extend_fresh_witness :
  extend [("type", VStr "language"); ("projectId", VStr "project-001")]
    [("scope", VStr "list")] =
  [("type", VStr "language"); ("projectId", VStr "project-001")] ++
  [("scope", VStr "list")].
Proof.
  apply extend_fresh.
  - apply (bool_decide_unpack _). vm_compute. exact I.
  - apply (bool_decide_unpack _). vm_compute. exact I.
Defined.

(** ** Key constructors: which keys coincide *)

(** X4. Two detail keys are the same cache key exactly when they were built
    from the same project and the same detail id. *)
Theorem detail_key_eq_iff p d p' d' :
  contentTypeKeys.queryKeys.detail p d =
    contentTypeKeys.queryKeys.detail p' d' <->
  p = p' /\ d = d'.
Proof.
  split; [apply detail_key_inj|]. by intros [-> ->].
Qed.

(** X5. Two list keys are the same cache key exactly when the project is the
    same and the filters agree once an absent filter is read as the empty
    record; so [list(p)] and [list(p, {})] are one key. *)
Theorem list_key_eq_iff p f p' f' :
  contentTypeKeys.queryKeys.list p f = contentTypeKeys.queryKeys.list p' f' <->
  p = p' /\ default ∅ f = default ∅ f'.
Proof.
  split.
  - intros H. cbn in H. by simplify_eq.
  - intros [-> Hf]. unfold contentTypeKeys.queryKeys.list. by rewrite Hf.
Qed.

(** X6. A key is registered with one cache model only: keys built by different
    query-key constructors never coincide. *)
Theorem registered_model_unique K m1 m2 :
  Registered K m1 -> Registered K m2 -> m1 = m2.
Proof.
  intros H1 H2. destruct H1; inversion H2; try reflexivity; discriminate.
Qed.

Lemma registered_model_unique_witness :
  TContentTypes = TContentTypes.
Proof.
  apply (registered_model_unique
           (contentTypeKeys.queryKeys.list "project-001" None)).
  - apply (reg_contentType_list "project-001" None).
  - apply (reg_contentType_list "project-001" (Some ∅)).
Defined.

(** X7. A content-type query key is never a filter key of either entity: no
    invalidation filter the constructors offer is itself a content-type
    cache key. *)
Theorem contentType_query_key_not_filter_key e Q :
  QueryKey contentTypeEntity Q -> ~ FilterKey e Q.
Proof.
  intros HQ HF. inversion HQ; subst; inversion HF; discriminate.
Qed.

Lemma contentType_query_key_not_filter_key_witness :
  ~ FilterKey contentTypeEntity
      (contentTypeKeys.queryKeys.detail "project-001" "article").
Proof.
  apply contentType_query_key_not_filter_key.
  apply (qk_contentType_detail "project-001" "article").
Defined.

(** X8. Every filter-key constructor adds exactly one field to the filter key
    it spreads: [projectId] to [all], then [scope] to [allForEnvironment]. *)
Theorem filter_key_adds_one_field F F' field :
  FilterParent F F' field ->
  exists v, extends_by F F' [(field, VStr v)] /\ strictly_extends F F'.
Proof.
  destruct 1; eexists; (split; [reflexivity|]); eexists;
    (split; [|reflexivity]); discriminate.
Qed.

Lemma filter_key_adds_one_field_witness :
  exists v,
    extends_by (contentTypeKeys.filterKeys.allForEnvironment "project-001")
      (contentTypeKeys.filterKeys.listsForEnvironment "project-001")
      [("scope", VStr v)] /\
    strictly_extends
      (contentTypeKeys.filterKeys.allForEnvironment "project-001")
      (contentTypeKeys.filterKeys.listsForEnvironment "project-001").
Proof.
  apply filter_key_adds_one_field.
  apply (fp_contentType_listsForEnvironment "project-001").
Defined.

(** ** The transport mock: lists *)

Lemma append_String a (s t : string) : String a s +:+ t = String a (s +:+ t).
Proof. reflexivity. Qed.

Lemma append_EmptyString (t : string) : EmptyString +:+ t = t.
Proof. reflexivity. Qed.

Lemma prefix_spec (sub s : string) :
  String.prefix sub s = true <-> exists post, s = sub +:+ post.
Proof.
  revert sub. induction s as [|b s IH]; intros [|a sub]; simpl.
  - split; [by exists EmptyString|done].
  - split; [done|]. intros [post Hpost]. by rewrite append_String in Hpost.
  - split; [by exists (String b s)|done].
  - destruct (Ascii.ascii_dec a b) as [->|Hne].
    + rewrite IH. split; intros [post Hpost]; exists post;
        rewrite append_String in *; congruence.
    + split; [done|]. intros [post Hpost].
      rewrite append_String in Hpost. congruence.
Qed.

(** [includes] is the substring test. *)
Lemma includes_spec (s sub : string) :
  includes s sub = true <-> exists pre post, s = pre +:+ sub +:+ post.
Proof.
  induction s as [|a s IH]; cbn [includes]; rewrite orb_true_iff, prefix_spec.
  - split.
    + intros [[post Hpost]|?]; [|done]. by exists EmptyString, post.
    + intros (pre & post & H). left.
      destruct pre; [by exists post|by rewrite append_String in H].
  - rewrite IH. split.
    + intros [[post Hpost]|(pre & post & Hpost)].
      * by exists EmptyString, post.
      * exists (String a pre), post. by rewrite append_String, Hpost.
    + intros ([|b pre] & post & Hpost).
      * left. by exists post.
      * right. exists pre, post. rewrite append_String in Hpost. congruence.
Qed.

Lemma List_filter_sublist {A} (f : A -> bool) (l : list A) :
  List.filter f l `sublist_of` l.
Proof.
  induction l as [|x l IH]; simpl; [constructor|].
  destruct (f x); by constructor.
Qed.

(** X9. The list fetch never fails, for any project and filter; what it returns
    is consistent: [pagination.count] is the number of rows in [data], there
    is no next page, and [data] holds rows of [allContentTypes] in their
    original order. *)
Theorem fetchContentTypes_consistent (toLowerCase : string -> string)
    (projectId : string) (filter : option (gmap string string)) :
  exists cs,
    mock.fetchContentTypes toLowerCase projectId filter = resolved cs /\
    ContentTypes.count (ContentTypes.pagination cs) =
      length (ContentTypes.data cs) /\
    ContentTypes.nextPage (ContentTypes.pagination cs) = None /\
    ContentTypes.data cs `sublist_of` mock.allContentTypes.
Proof.
  eexists. split; [reflexivity|].
  cbn [ContentTypes.data ContentTypes.pagination ContentTypes.count
       ContentTypes.nextPage].
  split; [done|]. split; [done|].
  destruct (filter ≫= _) as [n|]; [|done].
  destruct (String.eqb n EmptyString); [done|]. apply List_filter_sublist.
Qed.

(** X10. The list fetch looks at nothing but the [name] entry of the filter: two
    calls whose filters agree on [name] return the same, whatever the
    project ids and the other filter entries are. *)
Theorem fetchContentTypes_depends_on_name_only
    (toLowerCase : string -> string) (p p' : string)
    (f f' : option (gmap string string)) :
  f ≫= (fun r => r !! "name") = f' ≫= (fun r => r !! "name") ->
  mock.fetchContentTypes toLowerCase p f =
    mock.fetchContentTypes toLowerCase p' f'.
Proof. intros H. unfold mock.fetchContentTypes. by rewrite H. Qed.

Lemma fetchContentTypes_depends_on_name_only_witness :
  mock.fetchContentTypes (fun s => s) "project-001"
    (Some {[ "name" := "Art" ]}) =
  mock.fetchContentTypes (fun s => s) "project-002"
    (Some {[ "name" := "Art"; "codename" := "x" ]}).
Proof.
  apply fetchContentTypes_depends_on_name_only. vm_compute. reflexivity.
Defined.

(** X11. Without a usable name filter (no filter, no [name] entry, or an empty
    name) the list fetch returns all four content types. *)
Theorem fetchContentTypes_unfiltered (toLowerCase : string -> string)
    (projectId : string) (filter : option (gmap string string)) :
  filter ≫= (fun r => r !! "name") = None \/
  filter ≫= (fun r => r !! "name") = Some EmptyString ->
  mock.fetchContentTypes toLowerCase projectId filter =
    resolved
      (ContentTypes.mk mock.allContentTypes
         (ContentTypes.mk_pagination 4 None)).
Proof.
  intros [H|H]; unfold mock.fetchContentTypes; by rewrite H.
Qed.

Lemma fetchContentTypes_unfiltered_witness :
  mock.fetchContentTypes (fun s => s) "project-001"
    (Some {[ "codename" := "article" ]}) =
    resolved
      (ContentTypes.mk mock.allContentTypes
         (ContentTypes.mk_pagination 4 None)).
Proof.
  apply fetchContentTypes_unfiltered. left. vm_compute. reflexivity.
Defined.

(** X12. With a non-empty name filter the list fetch returns exactly the rows
    whose lower-cased name contains the lower-cased filter name. *)
Theorem fetchContentTypes_filtered (toLowerCase : string -> string)
    (projectId : string) (filter : gmap string string) (n : string)
    (c : ContentType.t) :
  filter !! "name" = Some n -> n <> EmptyString ->
  exists cs,
    mock.fetchContentTypes toLowerCase projectId (Some filter) =
      resolved cs /\
    (c ∈ ContentTypes.data cs <->
     c ∈ mock.allContentTypes /\
     exists pre post,
       toLowerCase (ContentType.name c) = pre +:+ toLowerCase n +:+ post).
Proof.
  intros Hn Hne. eexists. split; [reflexivity|].
  cbn [ContentTypes.data mbind option_bind]. rewrite Hn.
  destruct (String.eqb_spec n EmptyString) as [->|_]; [done|].
  by rewrite !list_elem_of_In, filter_In, includes_spec.
Qed.

Lemma fetchContentTypes_filtered_witness :
  exists cs,
    mock.fetchContentTypes (fun s => s) "project-001"
      (Some {[ "name" := "rod" ]}) = resolved cs /\
    (ContentType.mk "ct-003" "Product" "product" "2025-01-13T09:45:00Z"
       ∈ ContentTypes.data cs <->
     ContentType.mk "ct-003" "Product" "product" "2025-01-13T09:45:00Z"
       ∈ mock.allContentTypes /\
     exists pre post, "Product" = pre +:+ "rod" +:+ post).
Proof.
  apply (fetchContentTypes_filtered (fun s => s) "project-001"
           {[ "name" := "rod" ]} "rod").
  - vm_compute. reflexivity.
  - discriminate.
Defined.

(** ** The transport mock: details and commits *)

(** X13. The detail fetch has three outcomes, decided by the id alone: one of
    the three codenames resolves with the record of that codename; a name
    every object inherits resolves with the inherited member; every other
    id is rejected with a message that quotes it. *)
Theorem fetchContentType_outcome (projectId contentTypeId : string) :
  (contentTypeId ∈ ["article"; "author"; "product"] /\
   exists c,
     mock.fetchContentType projectId contentTypeId = resolved (Own c) /\
     ContentType.codename c = contentTypeId) \/
  (contentTypeId ∈ Object_prototype /\
   mock.fetchContentType projectId contentTypeId =
     resolved (Inherited contentTypeId)) \/
  ((contentTypeId ∉ ["article"; "author"; "product"] ++ Object_prototype) /\
   mock.fetchContentType projectId contentTypeId =
     rejected ("Content type with ID '" +:+ contentTypeId +:+ "' not found")).
Proof.
  destruct (decide (contentTypeId ∈ ["article"; "author"; "product"]))
    as [Hown|Hown].
  { left. split; [done|]. by apply fetchContentType_codename_resolved. }
  right.
  assert (own_property mock.mockContentTypesByCodename contentTypeId = None)
    as Hnone.
  { unfold mock.mockContentTypesByCodename, own_property.
    repeat match goal with
      | |- context [String.eqb ?k contentTypeId] =>
          destruct (String.eqb_spec k contentTypeId) as [<-|_];
          [exfalso; apply Hown; apply (bool_decide_unpack _); vm_compute;
           exact I|]
      end.
    done. }
  unfold mock.fetchContentType, property. rewrite Hnone.
  destruct (existsb (String.eqb contentTypeId) Object_prototype) eqn:Hproto.
  - left. split; [|done].
    apply existsb_exists in Hproto as (x & Hx & Heq).
    apply String.eqb_eq in Heq as <-. by apply list_elem_of_In.
  - right. split; [|done].
    intros [Hin|Hin]%elem_of_app; [done|].
    apply not_true_iff_false in Hproto. apply Hproto.
    apply existsb_exists. exists contentTypeId.
    split; [by apply list_elem_of_In|apply String.eqb_refl].
Qed.

(** X14. Whatever record the detail fetch returns is a row of the list, filed
    under the codename that was asked for: list and detail never disagree
    about an entity. *)
Theorem fetchContentType_row_of_list (projectId contentTypeId : string)
    (c : ContentType.t) :
  mock.fetchContentType projectId contentTypeId = resolved (Own c) ->
  c ∈ mock.allContentTypes /\ ContentType.codename c = contentTypeId.
Proof.
  unfold mock.fetchContentType, property. intros H.
  destruct (own_property mock.mockContentTypesByCodename contentTypeId)
    as [c'|] eqn:Hown;
    [|destruct (existsb _ _); discriminate H].
  assert (c' = c) as -> by congruence. clear H.
  unfold mock.mockContentTypesByCodename, own_property in Hown.
  repeat match type of Hown with
    | context [String.eqb ?k contentTypeId] =>
        destruct (String.eqb_spec k contentTypeId) as [<-|_];
        [simplify_eq; split; [repeat constructor|reflexivity]|]
    end.
  discriminate Hown.
Qed.

Lemma fetchContentType_row_of_list_witness :
  ContentType.mk "ct-002" "Author" "author" "2025-01-14T15:20:00Z"
    ∈ mock.allContentTypes /\
  ContentType.codename
    (ContentType.mk "ct-002" "Author" "author" "2025-01-14T15:20:00Z") =
    "author".
Proof.
  apply (fetchContentType_row_of_list "project-001" "author"). reflexivity.
Defined.

(** ** Query options *)

Lemma fetchContentTypes_empty_filter (toLowerCase : string -> string)
    (p : string) (filter : option (gmap string string)) :
  mock.fetchContentTypes toLowerCase p (Some (default ∅ filter)) =
  mock.fetchContentTypes toLowerCase p filter.
Proof. by destruct filter. Qed.

(** X15. The query functions take their arguments from the key they are run on,
    not from the arguments the options were built with: on any detail key
    the detail query fetches the detail that key names, and on any list key
    the list query fetches with the project and the filter the key was
    built from; that an absent filter is stored in the key as the empty
    record changes nothing in what is fetched. *)
Theorem queryFn_reads_key (toLowerCase : string -> string)
    (p d p' d' : string) (f f' : option (gmap string string)) :
  QueryOptions.queryFn (getContentType p d)
    (contentTypeKeys.queryKeys.detail p' d') =
    promise_map fetched_content_type (mock.fetchContentType p' d') /\
  QueryOptions.queryFn (getContentTypes toLowerCase p f)
    (contentTypeKeys.queryKeys.list p' f') =
    promise_map MContentTypes (mock.fetchContentTypes toLowerCase p' f').
Proof.
  split; [reflexivity|].
  rewrite <- (fetchContentTypes_empty_filter toLowerCase p' f').
  reflexivity.
Qed.

(** X16. The three queries are keyed by registered leaves, and what the list and
    language queries resolve with has the model their key is registered
    with; the detail query does so whenever its id is not a name inherited
    from [Object.prototype]. *)
Theorem queries_resolve_with_registered_model
    (toLowerCase : string -> string) (p d : string)
    (filter : option (gmap string string)) (v : CacheModel) :
  (QueryOptions.queryFn (getContentTypes toLowerCase p filter)
     (QueryOptions.queryKey (getContentTypes toLowerCase p filter)) =
     resolved v ->
   Registered (QueryOptions.queryKey (getContentTypes toLowerCase p filter))
     TContentTypes /\ has_model v TContentTypes) /\
  (QueryOptions.queryFn (languagesQuery p)
     (QueryOptions.queryKey (languagesQuery p)) = resolved v ->
   Registered (QueryOptions.queryKey (languagesQuery p)) TLanguages /\
   has_model v TLanguages) /\
  (QueryOptions.queryFn (getContentType p d)
     (QueryOptions.queryKey (getContentType p d)) = resolved v ->
   d ∉ Object_prototype ->
   Registered (QueryOptions.queryKey (getContentType p d)) TContentType /\
   has_model v TContentType).
Proof.
  split; [|split].
  - intros H. split; [constructor|].
    cbn [getContentTypes QueryOptions.queryFn] in H.
    unfold mock.fetchContentTypes in H. cbv zeta in H.
    cbn [promise_map] in H. by simplify_eq.
  - intros H. split; [constructor|]. simpl in H. by simplify_eq.
  - rewrite getContentType_queryFn. intros H Hproto.
    split; [constructor|].
    unfold mock.fetchContentType, property in H.
    destruct (own_property _ _).
    + simpl in H. by simplify_eq.
    + destruct (existsb _ _) eqn:Hex; [|discriminate H].
      exfalso. apply Hproto.
      apply existsb_exists in Hex as (x & Hx & Heq).
      apply String.eqb_eq in Heq as <-. by apply list_elem_of_In.
Qed.

(** X17. The key the mutation writes a listed content type under is its id; the
    detail query of the application is keyed by codename.  For every row of
    the list the two keys differ, and a fetch of the written key through
    the detail query is rejected. *)
Theorem written_detail_key_not_fetchable (p : string) (c : ContentType.t) :
  c ∈ mock.allContentTypes ->
  contentTypeKeys.queryKeys.detail p (ContentType.id c) <>
    QueryOptions.queryKey (getContentType p (ContentType.codename c)) /\
  QueryOptions.queryFn (getContentType p (ContentType.id c))
    (contentTypeKeys.queryKeys.detail p (ContentType.id c)) =
    rejected
      ("Content type with ID '" +:+ ContentType.id c +:+ "' not found").
Proof.
  intros Hin.
  repeat (apply elem_of_cons in Hin as [->|Hin];
          [split; [discriminate|reflexivity]|]).
  by apply elem_of_nil in Hin.
Qed.

Lemma written_detail_key_not_fetchable_witness :
  contentTypeKeys.queryKeys.detail "project-001" (ContentType.id article) <>
    QueryOptions.queryKey
      (getContentType "project-001" (ContentType.codename article)) /\
  QueryOptions.queryFn (getContentType "project-001" (ContentType.id article))
    (contentTypeKeys.queryKeys.detail "project-001" (ContentType.id article)) =
    rejected
      ("Content type with ID '" +:+ ContentType.id article +:+ "' not found").
Proof.
  apply written_detail_key_not_fetchable. repeat constructor.
Defined.

(** ** The demo application *)

(** X18. What a click on "Update Content Type" commits: nothing while no detail
    is loaded; otherwise the mutation function resolves with the loaded
    record under the same id and codename, its name followed by
    [" (Updated)"] and [lastModified] set to the time of the commit, for
    project [PROJECT_ID]. *)
Theorem handleUpdate_commits (commitTime : string)
    (data : option ContentType.t) :
  match data with
  | None => handleUpdate data = None
  | Some d =>
      exists variables,
        handleUpdate data = Some variables /\
        Variables.projectId variables = PROJECT_ID /\
        MutationOptions.mutationFn (updateContentType commitTime) variables =
          resolved
            (ContentType.mk (ContentType.id d)
               (ContentType.name d +:+ " (Updated)")
               (ContentType.codename d) commitTime)
  end.
Proof.
  destruct data as [d|]; [|reflexivity].
  eexists. split; [reflexivity|]. split; reflexivity.
Qed.

Lemma String_length_append (s t : string) :
  String.length (s +:+ t) = String.length s + String.length t.
Proof.
  induction s as [|a s IH]; [reflexivity|].
  rewrite append_String. simpl. by rewrite IH.
Qed.

(** X19. The manual cache update never creates a value (nothing cached stays
    nothing), never touches the id or the codename, and is not idempotent:
    every application makes the cached name 19 characters longer. *)
Theorem manualCacheUpdater_effect (now : string)
    (old : option ContentType.t) :
  (old = None <-> manualCacheUpdater now old = None) /\
  (forall c,
     old = Some c ->
     exists c',
       manualCacheUpdater now old = Some c' /\
       ContentType.id c' = ContentType.id c /\
       ContentType.codename c' = ContentType.codename c /\
       ContentType.lastModified c' = now /\
       ContentType.name c' = ContentType.name c +:+ " [Manually Updated]" /\
       String.length (ContentType.name c') =
         String.length (ContentType.name c) + 19).
Proof.
  split.
  - destruct old; split; intros H; try done.
  - intros c ->. eexists. split; [reflexivity|]. simpl.
    repeat (split; [reflexivity|]).
    by rewrite String_length_append.
Qed.
